(** * Gaming analytics dashboard (app.py): metric functions

    A shallow embedding of the four report functions of [app.py]
    ([get_device_users], [calculate_metrics], [calculate_funnel],
    [ggr_by_country]) over the four tables the module reads at start-up,
    and the properties of them that the specification states.

    The tables are module globals in the source; here they are one record
    [Tables] passed to every function.  Data frames are lists of rows, a
    Python [set] is a [gset], and a call that may raise returns in the
    small exception monad [exc]. *)

From Stdlib Require Import ZArith String.
From stdpp Require Import base decidable list sorting gmap sets strings.

#[local] Set Warnings "-clear-no-such-hyp".

Local Open Scope string_scope.
Local Open Scope list_scope.
Local Open Scope Z_scope.

(** ** Exceptions *)

Inductive exn := AttributeError | KeyError | LookupError | ValueError | OtherError.

Inductive exc (A : Type) :=
  | Ok (a : A)
  | Raise (e : exn).
Arguments Ok {A} a.
Arguments Raise {A} e.

Definition exc_bind {A B} (m : exc A) (k : A → exc B) : exc B :=
  match m with
  | Ok a => k a
  | Raise e => Raise e
  end.

Notation "x ←! m ; k" := (exc_bind m (λ x, k))
  (at level 20, m at level 100, k at level 200, right associativity,
   format "x  ←!  m ;  '/' k").

(** [try: m except: h]: a bare [except:] clause, which catches every
    exception of the body. *)
Definition try_except {A} (m : exc A) (h : exc A) : exc A :=
  match m with
  | Ok a => Ok a
  | Raise _ => h
  end.

(** [Series.apply f] where [f] may raise: the first exception aborts. *)
Fixpoint apply_rows {A B} (f : A → exc B) (l : list A) : exc (list B) :=
  match l with
  | [] => Ok []
  | x :: l' => y ←! f x; ys ←! apply_rows f l'; Ok (y :: ys)
  end.

(** ** Data frame primitives *)

Module pd.

Section unique.
Context {A : Type} `{EqDecision A}.

(** [Series.unique()]: the distinct values in order of first appearance;
    [seen] plays the hash table. *)
Fixpoint unique_from (seen : list A) (l : list A) : list A :=
  match l with
  | [] => []
  | x :: l' =>
      if decide (x ∈ seen) then unique_from seen l'
      else x :: unique_from (x :: seen) l'
  end.

Definition unique (l : list A) : list A := unique_from [] l.

(** [Series.nunique()]. *)
Definition nunique (l : list A) : nat := length (unique l).
End unique.

(** [sorted(...)] of a list of dates (day numbers). *)
Definition sorted (l : list Z) : list Z := merge_sort Z.le l.

(** Byte-wise order of strings, the order of Python's [str] on code points. *)
Definition str_le (a b : string) : Prop := Is_true (String.leb a b).

Global Instance str_le_dec a b : Decision (str_le a b).
Proof. unfold str_le. apply _. Defined.

Section groupby.
Context {R K : Type} `{EqDecision K}.
Context (le : relation K) `{∀ x y, Decision (le x y)}.

(** [df.groupby(key)]: the groups in ascending key order (sort=True), the
    rows of a group in frame order; rows whose key is missing (NaN) belong
    to no group (dropna=True, the default the source leaves in place). *)
Definition groupby (key : R → option K) (rows : list R) : list (K * list R) :=
  (λ k, (k, filter (λ r, key r = Some k) rows)) <$>
    merge_sort le (unique (omap key rows)).
End groupby.

(** [df[col] = values]: a list assigned as a column must have the frame's
    length, otherwise pandas raises ValueError. *)
Fixpoint assign {A B} (df : list A) (col : list B) : exc (list (A * B)) :=
  match df, col with
  | [], [] => Ok []
  | r :: df', v :: col' => rest ←! assign df' col'; Ok ((r, v) :: rest)
  | _, _ => Raise ValueError
  end.

End pd.

(** ** Tables *)

(** A cell of a string column: [None] is NaN. *)
Definition cell := option string.

Class UserId (R : Type) := user_id : R → Z.

Record Bet := {
  bet_user_id : Z;
  bet_time : Z;
  bet_amount : Z
}.

Record Session := {
  session_user_id : Z;
  device_type : string;
  start_time : Z;
  end_time : Z
}.

Record Transaction := {
  transaction_user_id : Z;
  transaction_type : string;
  timestamp : Z;
  amount : Z
}.

Record User := {
  user_user_id : Z;
  country : cell;
  registration_date : Z
}.

Global Instance Bet_user_id : UserId Bet := bet_user_id.
Global Instance Session_user_id : UserId Session := session_user_id.
Global Instance Transaction_user_id : UserId Transaction := transaction_user_id.
Global Instance User_user_id : UserId User := user_user_id.

(** Timestamps are nanoseconds since the epoch (datetime64[ns]); amounts
    are integers.  A date is the day number of a timestamp. *)
Definition ns_per_day : Z := 86400000000000.

(** sessions["date"] = sessions["start_time"].dt.date *)
Definition date (s : Session) : Z := start_time s `div` ns_per_day.

Record Tables := {
  bets : list Bet;
  sessions : list Session;
  transactions : list Transaction;
  users : list User
}.

(** A row of the frame [calculate_metrics] returns. *)
Record MetricsRow := {
  row_date : Z;
  DAU : nat;
  WAU : nat;
  MAU : nat
}.

(** ** 3. Users of a device *)

Section reports.
Context (T : Tables).

(** set(sessions[sessions["device_type"] == ty]["user_id"]) *)
Definition users_with_device_type (ty : string) : gset Z :=
  list_to_set (user_id <$> filter (λ s, device_type s = ty) (sessions T)).

(** The two recursive calls of the "all" branch are on the literals
    "mobile" and "desktop", which return from the first two branches;
    they are unfolded here. *)
Definition get_device_users (device : string) : gset Z :=
  if decide (device = "mobile") then users_with_device_type "mobile"
  else if decide (device = "desktop") then users_with_device_type "desktop"
  else if decide (device = "all") then
    let mobile_users := users_with_device_type "mobile" in
    let desktop_users := users_with_device_type "desktop" in
    mobile_users ∪ desktop_users
  else ∅.

(** ** 4. DAU / WAU / MAU *)

(** The sessions [calculate_metrics] counts: for "all" those of the users
    of the segment, for any other value those whose device_type is the
    value itself. *)
Definition filtered_sessions (device : string) : list Session :=
  if decide (device = "all") then
    let dev_users := get_device_users "all" in
    filter (λ s, user_id s ∈ dev_users) (sessions T)
  else
    filter (λ s, device_type s = device) (sessions T).

(** filtered_sessions[(date >= d - Timedelta(days=k)) & (date <= d)]
    ["user_id"].nunique() *)
Definition window_count (fs : list Session) (d k : Z) : nat :=
  pd.nunique (user_id <$> filter (λ s, d - k ≤ date s ∧ date s ≤ d) fs).

(** The DAU frame comes from the group-by on date; the WAU and MAU lists are
    filled by the loop over the sorted dates and then assigned as columns,
    by position. *)
Definition calculate_metrics (device : string) : exc (list MetricsRow) :=
  let fs := filtered_sessions device in
  let dau :=
    (λ g, (g.1, pd.nunique (user_id <$> g.2))) <$>
      pd.groupby Z.le (λ s, Some (date s)) fs in
  let dates := pd.sorted (pd.unique (date <$> fs)) in
  let wau := (λ d, window_count fs d 6) <$> dates in
  let mau := (λ d, window_count fs d 29) <$> dates in
  dau ←! pd.assign dau wau;
  dau ←! pd.assign dau mau;
  Ok ((λ r, {| row_date := r.1.1.1; DAU := r.1.1.2;
               WAU := r.1.2; MAU := r.2 |}) <$> dau).

(** ** 5. Funnel *)

(** Users of the segment with a transaction of type "deposit". *)
Definition deposit_users (device : string) : gset Z :=
  let registrations_users := get_device_users device in
  list_to_set (user_id <$>
    filter (λ t, transaction_type t = "deposit" ∧
                 user_id t ∈ registrations_users) (transactions T)).

(** Users of the deposit cohort with a bet. *)
Definition bet_users (device : string) : gset Z :=
  list_to_set (user_id <$>
    filter (λ b, user_id b ∈ deposit_users device) (bets T)).

(** len(registrations_users), len(deposit_users), len(bet_users) *)
Definition calculate_funnel (device : string) : nat * nat * nat :=
  (size (get_device_users device),
   size (deposit_users device),
   size (bet_users device)).
End reports.

(** ** 6. GGR by country *)

(** A row of bets.merge(users, on="user_id", how="left"): the bet and the
    users row it matched, if any; the columns of a missing match are NaN. *)
Record BetUser := {
  bu_bet : Bet;
  bu_user : option User
}.

Definition bu_country (r : BetUser) : cell := bu_user r ≫= country.
Definition bu_bet_amount (r : BetUser) : Z := bet_amount (bu_bet r).

(** Left join: the bets in their order, each once per users row with its
    user_id, or once with missing user columns when there is none. *)
Definition merge_left (left : list Bet) (right : list User) : list BetUser :=
  left ≫= λ b,
    match filter (λ u, user_id u = user_id b) right with
    | [] => [ {| bu_bet := b; bu_user := None |} ]
    | us => (λ u, {| bu_bet := b; bu_user := Some u |}) <$> us
    end.

(** [Series.sum()] of an integer column. *)
Definition sum (l : list Z) : Z := foldr Z.add 0 l.

Record GgrRow := {
  country_col : cell;
  GGR : Z
}.

Section ggr.
(** [pycountry.countries.get(alpha_2=code)]: the record found (here its
    [name]), [None] when there is none, or an exception. *)
Context (countries_get : cell → exc (option string)).

(** [.name]: on [None] an AttributeError. *)
Definition attr_name (r : option string) : exc string :=
  match r with
  | Some n => Ok n
  | None => Raise AttributeError
  end.

(** try: return pycountry.countries.get(alpha_2=code).name
    except: return code *)
Definition country_name (code : cell) : exc cell :=
  try_except
    (r ←! countries_get code; n ←! attr_name r; Ok (Some n))
    (Ok code).

(** The bets kept by either branch of the test device == "all". *)
Definition filtered_bets (T : Tables) (device : string) : list Bet :=
  if decide (device = "all") then
    let dev_users := get_device_users T "all" in
    filter (λ b, user_id b ∈ dev_users) (bets T)
  else
    let dev_users := get_device_users T device in
    filter (λ b, user_id b ∈ dev_users) (bets T).

(** The frame [ggr_country] before the names are resolved: one row per
    country code, with the sum of its bets. *)
Definition ggr_country (bets_users : list BetUser) : list GgrRow :=
  (λ g, {| country_col := Some g.1; GGR := sum (bu_bet_amount <$> g.2) |}) <$>
    pd.groupby pd.str_le bu_country bets_users.

(** The merge, the group-by and the column of names; the name of a row is
    computed by [country_name], row by row. *)
Definition ggr_by_country (T : Tables) (device : string) : exc (list GgrRow) :=
  let bets_users := merge_left (filtered_bets T device) (users T) in
  let ggr_country := ggr_country bets_users in
  apply_rows
    (λ r, c ←! country_name (country_col r);
          Ok {| country_col := c; GGR := GGR r |})
    ggr_country.
End ggr.

(** ** Definitions the properties are stated with *)

(** The users with a session of [fs] dated in the closed interval
    [lo, hi]. *)
Definition active_users (fs : list Session) (lo hi : Z) : gset Z :=
  list_to_set (user_id <$> filter (λ s, lo ≤ date s ∧ date s ≤ hi) fs).

(** The row [calculate_metrics] builds for the date [d]. *)
Definition metrics_row (fs : list Session) (d : Z) : MetricsRow :=
  {| row_date := d;
     DAU := pd.nunique (user_id <$> filter (λ s, Some (date s) = Some d) fs);
     WAU := window_count fs d 6;
     MAU := window_count fs d 29 |}.

(** The cell [country_name] leaves for [code]: the name of the record found,
    otherwise [code] itself. *)
Definition resolved_name (countries_get : cell → exc (option string))
    (code : cell) : cell :=
  match countries_get code with
  | Ok (Some n) => Some n
  | Ok None | Raise _ => code
  end.

(** The computation of [ggr_by_country] written once, without the test on
    the device: keep the bets of the users of the segment, left-join the
    users, group by country and sum bet_amount, then resolve the names. *)
Definition ggr_by_country_uniform (countries_get : cell → exc (option string))
    (T : Tables) (device : string) : exc (list GgrRow) :=
  let segment := get_device_users T device in
  let kept := filter (λ b, user_id b ∈ segment) (bets T) in
  let joined := merge_left kept (users T) in
  apply_rows
    (λ r, c ←! country_name countries_get (country_col r);
          Ok {| country_col := c; GGR := GGR r |})
    (ggr_country joined).

(** The tables [T] without the bets of the user [u]. *)
Definition without_bets_of (u : Z) (T : Tables) : Tables :=
  {| bets := filter (λ b, user_id b ≠ u) (bets T);
     sessions := sessions T;
     transactions := transactions T;
     users := users T |}.

(** The session [s] moved by [k] whole days. *)
Definition shift_days (k : Z) (s : Session) : Session :=
  {| session_user_id := session_user_id s;
     device_type := device_type s;
     start_time := start_time s + k * ns_per_day;
     end_time := end_time s + k * ns_per_day |}.

(** The tables with every session moved by [k] days. *)
Definition shift_sessions (k : Z) (T : Tables) : Tables :=
  {| bets := bets T;
     sessions := shift_days k <$> sessions T;
     transactions := transactions T;
     users := users T |}.

(** The row [r] with its date moved by [k] days. *)
Definition shift_row (k : Z) (r : MetricsRow) : MetricsRow :=
  {| row_date := row_date r + k; DAU := DAU r; WAU := WAU r; MAU := MAU r |}.

(** The users with a transaction of type "deposit", on any device. *)
Definition depositors (T : Tables) : gset Z :=
  list_to_set (user_id <$>
    filter (λ t, transaction_type t = "deposit") (transactions T)).

(** The users with a bet. *)
Definition bettors (T : Tables) : gset Z :=
  list_to_set (user_id <$> bets T).

(** The tables with every row of sessions, transactions and bets twice, the
    first copy in reverse order. *)
Definition doubled_tables (T : Tables) : Tables :=
  {| bets := reverse (bets T) ++ bets T;
     sessions := reverse (sessions T) ++ sessions T;
     transactions := reverse (transactions T) ++ transactions T;
     users := users T |}.

(** The columns of a session that the activity metrics read. *)
Definition session_columns (s : Session) : Z * string * Z :=
  (user_id s, device_type s, date s).

(** ** Sample tables *)

(** A small country database: two records, no record for other codes, and
    an error for a cell that is not a string. *)
Definition sample_countries (code : cell) : exc (option string) :=
  match code with
  | None => Raise LookupError
  | Some c =>
      if decide (c = "UA") then Ok (Some "Ukraine")
      else if decide (c = "DE") then Ok (Some "Germany")
      else Ok None
  end.

(** A session of user [u] on platform [ty], one hour into day [day]. *)
Definition session_on (u : Z) (ty : string) (day : Z) : Session :=
  {| session_user_id := u; device_type := ty;
     start_time := day * ns_per_day + 3600000000000;
     end_time := day * ns_per_day + 5400000000000 |}.

(** Seven days, a new user on each of them. *)
Definition week_tables : Tables :=
  {| bets := [];
     sessions := [ session_on 1 "mobile" 0; session_on 2 "mobile" 1;
                   session_on 3 "mobile" 2; session_on 4 "mobile" 3;
                   session_on 5 "mobile" 4; session_on 6 "mobile" 5;
                   session_on 7 "mobile" 6 ];
     transactions := [];
     users := [] |}.

(** The week of [week_tables] with every session started twenty hours later
    on the same day and ended after midnight. *)
Definition week_evening_tables : Tables :=
  {| bets := [];
     sessions :=
       (λ s, {| session_user_id := session_user_id s;
                device_type := device_type s;
                start_time := start_time s + 72000000000000;
                end_time := start_time s + 100000000000000 |}) <$>
         sessions week_tables;
     transactions := [];
     users := [] |}.

(** Two sessions, one on each platform of the selector. *)
Definition two_platform_tables : Tables :=
  {| bets := [];
     sessions := [ {| session_user_id := 1; device_type := "mobile";
                      start_time := 0; end_time := 60000000000 |};
                   {| session_user_id := 2; device_type := "desktop";
                      start_time := 86400000000000;
                      end_time := 86460000000000 |} ];
     transactions := [];
     users := [] |}.

(** One session on a tablet, nothing else. *)
Definition tablet_tables : Tables :=
  {| bets := [];
     sessions := [ {| session_user_id := 1; device_type := "tablet";
                      start_time := 0; end_time := 60000000000 |} ];
     transactions := [];
     users := [] |}.

(** The first of two states of the tables with the same sessions, the same
    user and type of every transaction and the same user of every bet; the
    times and amounts differ, and here the bet comes before the deposit. *)
Definition bet_before_deposit_tables : Tables :=
  {| bets := [ {| bet_user_id := 7; bet_time := 1000; bet_amount := 5 |} ];
     sessions := [ {| session_user_id := 7; device_type := "mobile";
                      start_time := 0; end_time := 500 |} ];
     transactions := [ {| transaction_user_id := 7;
                          transaction_type := "deposit";
                          timestamp := 2000; amount := 50 |} ];
     users := [ {| user_user_id := 7; country := Some "UA";
                   registration_date := 0 |} ] |}.

(** The second state: the deposit first, other amounts, no users. *)
Definition bet_after_deposit_tables : Tables :=
  {| bets := [ {| bet_user_id := 7; bet_time := 9000; bet_amount := 70 |} ];
     sessions := sessions bet_before_deposit_tables;
     transactions := [ {| transaction_user_id := 7;
                          transaction_type := "deposit";
                          timestamp := 10; amount := 999 |} ];
     users := [] |}.

(** User 3 has bets and no row in users; user 4 has both. *)
Definition orphan_bet_tables : Tables :=
  {| bets := [ {| bet_user_id := 3; bet_time := 100; bet_amount := 25 |};
               {| bet_user_id := 4; bet_time := 200; bet_amount := 10 |} ];
     sessions := [ {| session_user_id := 3; device_type := "mobile";
                      start_time := 0; end_time := 50 |};
                   {| session_user_id := 4; device_type := "desktop";
                      start_time := 0; end_time := 50 |} ];
     transactions := [];
     users := [ {| user_user_id := 4; country := Some "UA";
                   registration_date := 0 |} ] |}.

(** * Properties *)

(** ** Facts about the data frame primitives *)

Section unique_facts.
Context {A : Type} `{EqDecision A}.
Implicit Types (l seen : list A) (x : A).

Lemma elem_of_unique_from seen l x :
  x ∈ pd.unique_from seen l ↔ x ∈ l ∧ x ∉ seen.
Proof.
  revert seen. induction l as [|y l IH]; intros seen; simpl.
  - rewrite elem_of_nil. tauto.
  - destruct (decide (y ∈ seen)) as [Hy|Hy].
    + rewrite IH, elem_of_cons. split; [tauto|].
      intros [[->|?] ?]; [contradiction|tauto].
    + rewrite !elem_of_cons, IH, elem_of_cons. split.
      * intros [->|[? ?]]; [tauto|]. split; [tauto|]. intros Hx. tauto.
      * intros [[->|?] ?]; [tauto|].
        destruct (decide (x = y)) as [->|Hne]; [tauto|]. right. tauto.
Qed.

Lemma NoDup_unique_from seen l : NoDup (pd.unique_from seen l).
Proof.
  revert seen. induction l as [|y l IH]; intros seen; simpl.
  - constructor.
  - destruct (decide (y ∈ seen)); [apply IH|].
    constructor; [|apply IH].
    rewrite elem_of_unique_from, elem_of_cons. tauto.
Qed.

Lemma elem_of_unique l x : x ∈ pd.unique l ↔ x ∈ l.
Proof.
  unfold pd.unique. rewrite elem_of_unique_from, elem_of_nil. tauto.
Qed.

Lemma NoDup_unique l : NoDup (pd.unique l).
Proof. apply NoDup_unique_from. Qed.

(** The number of distinct values grows with the values present. *)
Lemma nunique_mono l1 l2 : l1 ⊆ l2 → (pd.nunique l1 ≤ pd.nunique l2)%nat.
Proof.
  intros Hsub. unfold pd.nunique.
  apply submseteq_length, NoDup_submseteq; [apply NoDup_unique|].
  intros x. rewrite !elem_of_unique. apply Hsub.
Qed.

End unique_facts.

(** [nunique] counts the elements of the set of values. *)
Lemma nunique_size `{Countable A} (l : list A) :
  pd.nunique l = size (list_to_set l : gset A).
Proof.
  unfold pd.nunique, size, set_size. simpl. apply Permutation_length.
  apply NoDup_Permutation; [apply NoDup_unique|apply NoDup_elements|].
  intros x. rewrite elem_of_unique, elem_of_elements, elem_of_list_to_set.
  done.
Qed.

Lemma elem_of_sorted (l : list Z) (d : Z) : d ∈ pd.sorted l ↔ d ∈ l.
Proof. unfold pd.sorted. by rewrite merge_sort_Permutation. Qed.

Lemma NoDup_sorted (l : list Z) : NoDup l → NoDup (pd.sorted l).
Proof. unfold pd.sorted. by rewrite merge_sort_Permutation. Qed.

Lemma omap_Some_fmap {A B} (f : A → B) (l : list A) :
  omap (λ x, Some (f x)) l = f <$> l.
Proof. induction l as [|x l IH]; [done|]. cbn. by f_equal. Qed.

(** Two columns computed from the rows of one frame are assigned without
    error: they have its length. *)
Lemma assign_fmap {A B C} (f : A → B) (g : A → C) (l : list A) :
  pd.assign (f <$> l) (g <$> l) = Ok ((λ x, (f x, g x)) <$> l).
Proof.
  induction l as [|x l IH]; [done|].
  rewrite !fmap_cons. cbn [pd.assign]. by rewrite IH.
Qed.

(** ** Device segments *)

Lemma elem_of_users_with_device_type T ty u :
  u ∈ users_with_device_type T ty ↔
  ∃ s, s ∈ sessions T ∧ device_type s = ty ∧ user_id s = u.
Proof.
  unfold users_with_device_type.
  rewrite elem_of_list_to_set, list_elem_of_fmap.
  setoid_rewrite list_elem_of_filter. naive_solver.
Qed.

Lemma get_device_users_mobile T :
  get_device_users T "mobile" = users_with_device_type T "mobile".
Proof. reflexivity. Qed.

Lemma get_device_users_desktop T :
  get_device_users T "desktop" = users_with_device_type T "desktop".
Proof. reflexivity. Qed.

Lemma get_device_users_all T :
  get_device_users T "all" =
  users_with_device_type T "mobile" ∪ users_with_device_type T "desktop".
Proof. reflexivity. Qed.

Lemma get_device_users_other T device :
  device ≠ "mobile" → device ≠ "desktop" → device ≠ "all" →
  get_device_users T device = ∅.
Proof.
  intros Hm Hd Ha. unfold get_device_users.
  by rewrite !decide_False.
Qed.

(** C5: the "all" segment is the union of the mobile and the desktop
    segment, contains each of them, and holds a user of both platforms once:
    its size is the two sizes less the size of the overlap. *)
Theorem get_device_users_all_union T :
  get_device_users T "all" =
    get_device_users T "mobile" ∪ get_device_users T "desktop" ∧
  get_device_users T "mobile" ⊆ get_device_users T "all" ∧
  get_device_users T "desktop" ⊆ get_device_users T "all" ∧
  (size (get_device_users T "all") +
     size (get_device_users T "mobile" ∩ get_device_users T "desktop") =
   size (get_device_users T "mobile") + size (get_device_users T "desktop"))%nat.
Proof.
  rewrite get_device_users_all, get_device_users_mobile,
    get_device_users_desktop.
  set (M := users_with_device_type T "mobile").
  set (D := users_with_device_type T "desktop").
  split; [done|]. split; [set_solver|]. split; [set_solver|].
  rewrite size_union_alt.
  assert (size D = size (D ∖ M) + size (M ∩ D))%nat as ->; [|lia].
  rewrite <- size_union by set_solver. f_equal.
  apply set_eq. intros x. rewrite elem_of_union, elem_of_difference,
    elem_of_intersection. destruct (decide (x ∈ M)); naive_solver.
Qed.

(** C6: for "mobile" and "desktop" the users of the sessions that
    [calculate_metrics] selects by the raw device_type test are the segment
    [get_device_users] returns. *)
Theorem filtered_sessions_users_single_device T device :
  device = "mobile" ∨ device = "desktop" →
  list_to_set (user_id <$> filtered_sessions T device) =
    get_device_users T device.
Proof. by intros [-> | ->]. Qed.

(** ** Funnel *)

Lemma deposit_users_subseteq T device :
  deposit_users T device ⊆ get_device_users T device.
Proof.
  intros u. unfold deposit_users.
  rewrite elem_of_list_to_set, list_elem_of_fmap.
  intros (t & -> & Ht). apply list_elem_of_filter in Ht. tauto.
Qed.

Lemma bet_users_subseteq T device :
  bet_users T device ⊆ deposit_users T device.
Proof.
  intros u. unfold bet_users.
  rewrite elem_of_list_to_set, list_elem_of_fmap.
  intros (b & -> & Hb). apply list_elem_of_filter in Hb. tauto.
Qed.

(** C3: the three counts of the funnel never increase from left to right;
    each cohort is a subset of the one before it. *)
Theorem calculate_funnel_monotone T device :
  bet_users T device ⊆ deposit_users T device ∧
  deposit_users T device ⊆ get_device_users T device ∧
  ∃ registrations_count deposit_count bet_count : nat,
    calculate_funnel T device =
      (registrations_count, deposit_count, bet_count) ∧
    (registrations_count ≥ deposit_count)%nat ∧
    (deposit_count ≥ bet_count)%nat.
Proof.
  split; [apply bet_users_subseteq|]. split; [apply deposit_users_subseteq|].
  eexists _, _, _. split; [reflexivity|].
  split; apply subseteq_size;
    [apply deposit_users_subseteq|apply bet_users_subseteq].
Qed.

(** ** Activity metrics *)

Lemma elem_of_active_users fs lo hi u :
  u ∈ active_users fs lo hi ↔
  ∃ s, s ∈ fs ∧ user_id s = u ∧ lo ≤ date s ≤ hi.
Proof.
  unfold active_users.
  rewrite elem_of_list_to_set, list_elem_of_fmap.
  setoid_rewrite list_elem_of_filter. naive_solver.
Qed.

Lemma window_count_active_users fs d k :
  window_count fs d k = size (active_users fs (d - k) d).
Proof. unfold window_count, active_users. apply nunique_size. Qed.

(** The two column assignments never fail, and the frame returned has one
    row per date of the filtered sessions, in ascending order. *)
Lemma calculate_metrics_rows T device :
  calculate_metrics T device =
    Ok (metrics_row (filtered_sessions T device) <$>
          pd.sorted (pd.unique (date <$> filtered_sessions T device))).
Proof.
  unfold calculate_metrics, pd.groupby.
  set (fs := filtered_sessions T device).
  rewrite omap_Some_fmap. fold (pd.sorted (pd.unique (date <$> fs))).
  set (dates := pd.sorted _).
  rewrite <- list_fmap_compose, assign_fmap. cbn [exc_bind].
  rewrite assign_fmap. cbn [exc_bind].
  by rewrite <- list_fmap_compose.
Qed.

Lemma elem_of_metrics_dates fs d :
  d ∈ pd.sorted (pd.unique (date <$> fs)) ↔ d ∈ date <$> fs.
Proof. by rewrite elem_of_sorted, elem_of_unique. Qed.

Lemma NoDup_metrics_dates fs : NoDup (pd.sorted (pd.unique (date <$> fs))).
Proof. apply NoDup_sorted, NoDup_unique. Qed.

Lemma metrics_row_dates fs (dates : list Z) :
  row_date <$> (metrics_row fs <$> dates) = dates.
Proof. induction dates as [|d dates IH]; [done|]. cbn. by f_equal. Qed.

Lemma metrics_row_ordered fs d :
  (DAU (metrics_row fs d) ≤ WAU (metrics_row fs d))%nat ∧
  (WAU (metrics_row fs d) ≤ MAU (metrics_row fs d))%nat.
Proof.
  cbn [metrics_row DAU WAU MAU]. unfold window_count.
  split; apply nunique_mono; intros u; rewrite !list_elem_of_fmap;
    intros (s & -> & Hs); exists s; split; try done;
    apply list_elem_of_filter in Hs as [Hd Hs];
    apply list_elem_of_filter; (split; [|done]).
  - injection Hd as <-. lia.
  - lia.
Qed.

(** C2: for a date [d] of the filtered sessions the frame, whose dates are
    pairwise distinct, has exactly one row; its WAU is the number of distinct users with a filtered session
    dated in [d - 6, d], its MAU the number of those dated in
    [d - 29, d], both ends included. *)
Theorem calculate_metrics_windows T device d :
  d ∈ date <$> filtered_sessions T device →
  ∃ rows r,
    calculate_metrics T device = Ok rows ∧
    NoDup (row_date <$> rows) ∧
    r ∈ rows ∧ row_date r = d ∧
    (∀ r', r' ∈ rows → row_date r' = d → r' = r) ∧
    WAU r = size (active_users (filtered_sessions T device) (d - 6) d) ∧
    MAU r = size (active_users (filtered_sessions T device) (d - 29) d).
Proof.
  intros Hd. set (fs := filtered_sessions T device) in *.
  exists (metrics_row fs <$> pd.sorted (pd.unique (date <$> fs))),
    (metrics_row fs d).
  split; [apply calculate_metrics_rows|].
  split; [rewrite metrics_row_dates; apply NoDup_metrics_dates|].
  split; [apply list_elem_of_fmap_2, elem_of_metrics_dates, Hd|].
  split; [done|]. split.
  - intros r' Hr' Hdate. apply list_elem_of_fmap in Hr' as (d' & -> & _).
    cbn in Hdate. by subst d'.
  - cbn [metrics_row WAU MAU]. by rewrite !window_count_active_users.
Qed.

(** C4: the call returns a frame with a row for each date that has a
    filtered session and for no other date, and in every row
    DAU <= WAU <= MAU. *)
Theorem calculate_metrics_ordered T device :
  ∃ rows,
    calculate_metrics T device = Ok rows ∧
    (∀ d, d ∈ row_date <$> rows ↔ d ∈ date <$> filtered_sessions T device) ∧
    Forall (λ r, (DAU r ≤ WAU r)%nat ∧ (WAU r ≤ MAU r)%nat) rows.
Proof.
  eexists. split; [apply calculate_metrics_rows|]. split.
  - intros d. by rewrite metrics_row_dates, elem_of_metrics_dates.
  - apply Forall_fmap, Forall_forall. intros d _. apply metrics_row_ordered.
Qed.

(** ** Unknown device values *)

Lemma filtered_sessions_not_all T device :
  device ≠ "all" →
  filtered_sessions T device = filter (λ s, device_type s = device) (sessions T).
Proof. intros Ha. unfold filtered_sessions. by rewrite decide_False. Qed.

Lemma calculate_metrics_no_rows T device :
  calculate_metrics T device = Ok [] ↔ filtered_sessions T device = [].
Proof.
  rewrite calculate_metrics_rows. split.
  - intros Hrows. injection Hrows as Hrows. apply fmap_nil_inv in Hrows.
    destruct (filtered_sessions T device) as [|s fs] eqn:Hfs; [done|].
    assert (date s ∈ pd.sorted (pd.unique (date <$> s :: fs))) as Hin.
    { apply elem_of_metrics_dates. rewrite fmap_cons. left. }
    rewrite Hrows in Hin. by apply elem_of_nil in Hin.
  - by intros ->.
Qed.

(** The claim that every device value other than "mobile", "desktop" and
    "all" gives a frame of no rows fails on a table with a tablet session:
    the raw test device_type == "tablet" selects it. *)
Lemma calculate_metrics_tablet_has_row :
  "tablet" ≠ "mobile" ∧ "tablet" ≠ "desktop" ∧ "tablet" ≠ "all" ∧
  get_device_users tablet_tables "tablet" = ∅ ∧
  calculate_metrics tablet_tables "tablet" =
    Ok [ {| row_date := 0; DAU := 1; WAU := 1; MAU := 1 |} ] ∧
  calculate_metrics tablet_tables "tablet" ≠ Ok [].
Proof. repeat split; try done. Qed.

(** C7, as the code has it: for a device value other than "mobile",
    "desktop" and "all" the segment is empty and the funnel is (0, 0, 0),
    neither with an error; [calculate_metrics] returns no rows exactly when
    no session row carries that value as its device_type. *)
Theorem unknown_device_empty T device :
  device ≠ "mobile" → device ≠ "desktop" → device ≠ "all" →
  get_device_users T device = ∅ ∧
  calculate_funnel T device = (0, 0, 0)%nat ∧
  (calculate_metrics T device = Ok [] ↔
   ∀ s, s ∈ sessions T → device_type s ≠ device).
Proof.
  intros Hm Hd Ha.
  pose proof (get_device_users_other T device Hm Hd Ha) as Hseg.
  pose proof (deposit_users_subseteq T device) as Hdep.
  pose proof (bet_users_subseteq T device) as Hbet.
  rewrite Hseg in Hdep.
  assert (deposit_users T device = ∅) as Hdep' by set_solver.
  rewrite Hdep' in Hbet.
  assert (bet_users T device = ∅) as Hbet' by set_solver.
  split; [done|]. split.
  - unfold calculate_funnel. by rewrite Hseg, Hdep', Hbet', size_empty.
  - rewrite calculate_metrics_no_rows, filtered_sessions_not_all by done.
    split.
    + intros Hnil s Hs Hty.
      assert (s ∈ filter (λ s, device_type s = device) (sessions T)) as Hin
        by by apply list_elem_of_filter.
      rewrite Hnil in Hin. by apply elem_of_nil in Hin.
    + intros Hnone. induction (sessions T) as [|s l IH]; [done|].
      rewrite filter_cons_False; [|apply Hnone; left].
      apply IH. intros s' Hs'. apply Hnone. by right.
Qed.

Lemma unknown_device_empty_witness :
  get_device_users two_platform_tables "tablet" = ∅ ∧
  calculate_funnel two_platform_tables "tablet" = (0, 0, 0)%nat ∧
  calculate_metrics two_platform_tables "tablet" = Ok [].
Proof.
  destruct (unknown_device_empty two_platform_tables "tablet")
    as (Hseg & Hfunnel & Hrows); [done..|].
  split; [exact Hseg|]. split; [exact Hfunnel|].
  apply Hrows. intros s Hs. repeat (apply elem_of_cons in Hs as [->|Hs]; [done|]).
  by apply elem_of_nil in Hs.
Defined.

(** ** What the funnel reads *)

(** Filtering on a test of the projected value commutes with projecting. *)
Lemma fmap_filter_proj {A B} (f : A → B) (P : B → Prop) (Q : A → Prop)
    `{!∀ y, Decision (P y)} `{!∀ x, Decision (Q x)} (l : list A) :
  (∀ x, Q x ↔ P (f x)) →
  f <$> filter Q l = filter P (f <$> l).
Proof.
  intros HQ. induction l as [|x l IH]; [done|].
  rewrite fmap_cons, !filter_cons.
  destruct (decide (Q x)) as [Hx|Hx], (decide (P (f x))) as [Hy|Hy];
    rewrite ?fmap_cons, ?IH; try done; apply HQ in Hx || apply HQ in Hy; done.
Qed.

Lemma elem_of_deposit_users T device u :
  u ∈ deposit_users T device ↔
  u ∈ get_device_users T device ∧
  ∃ t, t ∈ transactions T ∧ user_id t = u ∧ transaction_type t = "deposit".
Proof.
  unfold deposit_users.
  rewrite elem_of_list_to_set, list_elem_of_fmap.
  setoid_rewrite list_elem_of_filter. naive_solver.
Qed.

Lemma elem_of_bet_users T device u :
  u ∈ bet_users T device ↔
  u ∈ deposit_users T device ∧ ∃ b, b ∈ bets T ∧ user_id b = u.
Proof.
  unfold bet_users.
  rewrite elem_of_list_to_set, list_elem_of_fmap.
  setoid_rewrite list_elem_of_filter. naive_solver.
Qed.

Lemma get_device_users_sessions T1 T2 device :
  sessions T1 = sessions T2 →
  get_device_users T1 device = get_device_users T2 device.
Proof.
  intros Hs. unfold get_device_users, users_with_device_type. by rewrite Hs.
Qed.

Lemma deposit_users_columns T1 T2 device :
  sessions T1 = sessions T2 →
  (λ t, (user_id t, transaction_type t)) <$> transactions T1 =
    (λ t, (user_id t, transaction_type t)) <$> transactions T2 →
  deposit_users T1 device = deposit_users T2 device.
Proof.
  intros Hs Ht. unfold deposit_users.
  rewrite (get_device_users_sessions T1 T2 device Hs).
  set (R := get_device_users T2 device).
  set (col := λ t : Transaction, (user_id t, transaction_type t)) in *.
  assert (∀ l : list Transaction,
    user_id <$> filter (λ t, transaction_type t = "deposit" ∧ user_id t ∈ R) l =
    fst <$> filter (λ p : Z * string, p.2 = "deposit" ∧ p.1 ∈ R) (col <$> l))
    as Hcol.
  { intros l.
    rewrite <- (fmap_filter_proj col (λ p, p.2 = "deposit" ∧ p.1 ∈ R)
                  (λ t, transaction_type t = "deposit" ∧ user_id t ∈ R))
      by done.
    by rewrite <- list_fmap_compose. }
  by rewrite !Hcol, Ht.
Qed.

Lemma bet_users_columns T1 T2 device :
  deposit_users T1 device = deposit_users T2 device →
  user_id <$> bets T1 = user_id <$> bets T2 →
  bet_users T1 device = bet_users T2 device.
Proof.
  intros Hd Hb. unfold bet_users. rewrite Hd.
  set (D := deposit_users T2 device).
  assert (∀ l : list Bet,
    user_id <$> filter (λ b, user_id b ∈ D) l =
    filter (λ u, u ∈ D) (user_id <$> l)) as Hcol.
  { intros l. by apply fmap_filter_proj. }
  by rewrite !Hcol, Hb.
Qed.

(** C9: the funnel reads the sessions, the user and the type of each
    transaction and the user of each bet, and nothing else: two states of
    the tables that agree on these give the same three counts.  A user of
    the segment with a deposit and a bet is in the bet cohort whatever the
    times of the two events, so also when the bet is the earlier one. *)
Theorem calculate_funnel_reads_no_time_or_amount :
  (∀ T1 T2 device,
     sessions T1 = sessions T2 →
     (λ t, (user_id t, transaction_type t)) <$> transactions T1 =
       (λ t, (user_id t, transaction_type t)) <$> transactions T2 →
     user_id <$> bets T1 = user_id <$> bets T2 →
     calculate_funnel T1 device = calculate_funnel T2 device) ∧
  (∀ T device b t,
     b ∈ bets T → t ∈ transactions T →
     transaction_type t = "deposit" → user_id t = user_id b →
     user_id b ∈ get_device_users T device →
     bet_time b < timestamp t →
     user_id b ∈ bet_users T device ∧
     (1 ≤ (calculate_funnel T device).2)%nat).
Proof.
  split.
  - intros T1 T2 device Hs Ht Hb. unfold calculate_funnel.
    pose proof (deposit_users_columns T1 T2 device Hs Ht) as Hd.
    by rewrite (get_device_users_sessions T1 T2 device Hs), Hd,
      (bet_users_columns T1 T2 device Hd Hb).
  - intros T device b t Hb Ht Hty Hu Hseg _.
    assert (user_id b ∈ bet_users T device) as Hin.
    { apply elem_of_bet_users. split; [|by exists b].
      apply elem_of_deposit_users. split; [done|by exists t]. }
    split; [done|]. cbn.
    destruct (size (bet_users T device)) eqn:Hsize; [|lia].
    apply size_empty_inv in Hsize. set_solver.
Qed.

Lemma calculate_funnel_reads_no_time_or_amount_witness :
  calculate_funnel bet_before_deposit_tables "mobile" =
    calculate_funnel bet_after_deposit_tables "mobile" ∧
  7 ∈ bet_users bet_before_deposit_tables "mobile" ∧
  (1 ≤ (calculate_funnel bet_before_deposit_tables "mobile").2)%nat.
Proof.
  split.
  - by apply (proj1 calculate_funnel_reads_no_time_or_amount).
  - apply (proj2 calculate_funnel_reads_no_time_or_amount
             bet_before_deposit_tables "mobile"
             {| bet_user_id := 7; bet_time := 1000; bet_amount := 5 |}
             {| transaction_user_id := 7; transaction_type := "deposit";
                timestamp := 2000; amount := 50 |});
      [by left|by left|reflexivity|reflexivity| |reflexivity].
    apply elem_of_users_with_device_type. eexists. split; [by left|done].
Defined.

(** ** GGR by country *)

Lemma country_name_resolved cg code :
  country_name cg code = Ok (resolved_name cg code).
Proof.
  unfold country_name, resolved_name.
  by destruct (cg code) as [[n|]|e].
Qed.

Lemma apply_rows_total {A B} (f : A → exc B) (g : A → B) (l : list A) :
  (∀ x, f x = Ok (g x)) → apply_rows f l = Ok (g <$> l).
Proof.
  intros Hf. induction l as [|x l IH]; [done|].
  cbn [apply_rows]. by rewrite Hf, IH.
Qed.

(** The name resolution never fails, so neither does the report. *)
Lemma ggr_by_country_rows cg T device :
  ggr_by_country cg T device =
    Ok ((λ r, {| country_col := resolved_name cg (country_col r);
                 GGR := GGR r |}) <$>
        ggr_country (merge_left (filtered_bets T device) (users T))).
Proof.
  unfold ggr_by_country. apply apply_rows_total.
  intros r. by rewrite country_name_resolved.
Qed.

Lemma filtered_bets_segment T device :
  filtered_bets T device =
    filter (λ b, user_id b ∈ get_device_users T device) (bets T).
Proof.
  unfold filtered_bets. by destruct (decide (device = "all")) as [->|].
Qed.

(** C10: both branches of the test device == "all" keep the bets of the
    users of [get_device_users device], and the report is the one
    computation: filter, left join, group by country, sum, with the names
    resolved at the end. *)
Theorem ggr_by_country_branches_agree cg T device :
  filtered_bets T device =
    filter (λ b, user_id b ∈ get_device_users T device) (bets T) ∧
  ggr_by_country cg T device = ggr_by_country_uniform cg T device.
Proof.
  split; [apply filtered_bets_segment|].
  unfold ggr_by_country, ggr_by_country_uniform.
  by rewrite filtered_bets_segment.
Qed.

(** C8: the name column of the report is the lookup applied to each country
    code; a code whose lookup returns nothing or raises, whatever the code
    and the exception, stays as it is, and the report is returned, never
    an exception. *)
Theorem ggr_by_country_resolves_names cg T device :
  (∀ code n, cg code = Ok (Some n) → country_name cg code = Ok (Some n)) ∧
  (∀ code, cg code = Ok None → country_name cg code = Ok code) ∧
  (∀ code e, cg code = Raise e → country_name cg code = Ok code) ∧
  ∃ rows,
    ggr_by_country cg T device = Ok rows ∧
    Forall2
      (λ r0 r, country_name cg (country_col r0) = Ok (country_col r) ∧
               GGR r = GGR r0)
      (ggr_country (merge_left (filtered_bets T device) (users T))) rows.
Proof.
  split; [|split; [|split]].
  - intros code n Hcg. unfold country_name. by rewrite Hcg.
  - intros code Hcg. unfold country_name. by rewrite Hcg.
  - intros code e Hcg. unfold country_name. by rewrite Hcg.
  - eexists. split; [apply ggr_by_country_rows|].
    apply Forall2_fmap_r, Forall_Forall2_diag, Forall_forall.
    intros r _. cbn. by rewrite country_name_resolved.
Qed.

(** ** Bets of users that are not in the users table *)

Lemma merge_left_cons b l us :
  merge_left (b :: l) us = merge_left [b] us ++ merge_left l us.
Proof. unfold merge_left. cbn. by rewrite app_nil_r. Qed.

(** A bet with no users row is kept by the left join, with no user. *)
Lemma merge_left_unmatched b us :
  (∀ u, u ∈ us → user_id u ≠ user_id b) →
  merge_left [b] us = [ {| bu_bet := b; bu_user := None |} ].
Proof.
  intros Hno. unfold merge_left. cbn.
  assert (filter (λ u : User, user_id u = user_id b) us = []) as ->; [|done].
  induction us as [|u us IH]; [done|].
  rewrite filter_cons_False; [|apply Hno; left].
  apply IH. intros u' Hu'. apply Hno. by right.
Qed.

Lemma elem_of_merge_left r l us :
  r ∈ merge_left l us →
  bu_bet r ∈ l ∧
  match bu_user r with
  | Some u => u ∈ us ∧ user_id u = user_id (bu_bet r)
  | None => ∀ u, u ∈ us → user_id u ≠ user_id (bu_bet r)
  end.
Proof.
  unfold merge_left. rewrite list_elem_of_bind. intros (b & Hr & Hb).
  destruct (filter (λ u : User, user_id u = user_id b) us) as [|u0 us0] eqn:Hf.
  - apply list_elem_of_singleton in Hr as ->. cbn. split; [done|].
    intros u Hu Hid.
    assert (u ∈ filter (λ u : User, user_id u = user_id b) us) as Hin
      by by apply list_elem_of_filter.
    rewrite Hf in Hin. by apply elem_of_nil in Hin.
  - apply list_elem_of_fmap in Hr as (u & -> & Hu). cbn. split; [done|].
    rewrite <- Hf in Hu. by apply list_elem_of_filter in Hu as [? ?].
Qed.

Section groupby_facts.
Context {R K : Type} `{EqDecision K}.
Context (le : relation K) `{∀ x y, Decision (le x y)}.
Context (key : R → option K).

Lemma omap_filter_is_Some (rows : list R) :
  omap key (filter (λ r, is_Some (key r)) rows) = omap key rows.
Proof.
  induction rows as [|r rows IH]; [done|].
  rewrite filter_cons. destruct (decide (is_Some (key r))) as [Hr|Hr]; cbn.
  - by rewrite IH.
  - rewrite IH. destruct (key r) eqn:Hk; [|done].
    exfalso. apply Hr. by eexists.
Qed.

(** Rows without a key are in no group and give no key: the groups are those
    of the rows that have one. *)
Lemma groupby_dropna (rows : list R) :
  pd.groupby le key rows =
  pd.groupby le key (filter (λ r, is_Some (key r)) rows).
Proof.
  unfold pd.groupby. rewrite omap_filter_is_Some.
  apply list_fmap_ext. intros _ k _. f_equal.
  rewrite list_filter_filter. apply list_filter_iff.
  intros r. split; [|tauto]. intros Hk. split; [done|]. by eexists.
Qed.

End groupby_facts.

(** The joined rows that have a country do not change when the bets of a
    user without users row are taken away. *)
Lemma merge_left_without_unmatched (uid : Z) l us :
  (∀ u, u ∈ us → user_id u ≠ uid) →
  filter (λ r, is_Some (bu_country r))
    (merge_left (filter (λ b : Bet, user_id b ≠ uid) l) us) =
  filter (λ r, is_Some (bu_country r)) (merge_left l us).
Proof.
  intros Hno. induction l as [|b l IH]; [done|].
  rewrite (merge_left_cons b l), filter_app, <- IH, filter_cons.
  destruct (decide (user_id b ≠ uid)) as [Hb|Hb].
  - by rewrite merge_left_cons, filter_app.
  - apply dec_stable in Hb. rewrite merge_left_unmatched.
    + rewrite filter_cons_False; [done|]. cbn. by intros [? ?].
    + intros u Hu. rewrite Hb. by apply Hno.
Qed.

Lemma merge_left_keeps_unmatched b l us :
  b ∈ l → (∀ u, u ∈ us → user_id u ≠ user_id b) →
  {| bu_bet := b; bu_user := None |} ∈ merge_left l us.
Proof.
  intros Hb Hno. induction Hb as [b l|b b' l Hb IH];
    rewrite merge_left_cons, elem_of_app.
  - left. rewrite merge_left_unmatched by done. left.
  - right. by apply IH.
Qed.

Lemma filtered_bets_without_bets_of uid T device :
  filtered_bets (without_bets_of uid T) device =
    filter (λ b, user_id b ≠ uid) (filtered_bets T device).
Proof.
  rewrite !filtered_bets_segment.
  rewrite (get_device_users_sessions (without_bets_of uid T) T) by done.
  cbn [bets without_bets_of]. rewrite !list_filter_filter.
  apply list_filter_iff. tauto.
Qed.

Lemma ggr_country_has_code joined r :
  r ∈ ggr_country joined → country_col r ≠ None.
Proof.
  unfold ggr_country. rewrite list_elem_of_fmap. by intros (g & -> & _).
Qed.

Lemma resolved_name_Some cg code :
  code ≠ None → resolved_name cg code ≠ None.
Proof. unfold resolved_name. by destruct (cg code) as [[n|]|e]. Qed.

(** The claim that the amount of a bet without users row is found under a
    missing country key fails: on [orphan_bet_tables] the bet of user 3 is
    selected and joined with no country, and the report has the one row of
    user 4. *)
Lemma ggr_by_country_drops_unmatched_bet :
  {| bet_user_id := 3; bet_time := 100; bet_amount := 25 |} ∈
    filtered_bets orphan_bet_tables "all" ∧
  (∀ u, u ∈ users orphan_bet_tables → user_id u ≠ 3) ∧
  bu_country <$>
    merge_left (filtered_bets orphan_bet_tables "all")
      (users orphan_bet_tables) = [None; Some "UA"] ∧
  ggr_by_country sample_countries orphan_bet_tables "all" =
    Ok [ {| country_col := Some "Ukraine"; GGR := 10 |} ] ∧
  ¬ ∃ rows r,
      ggr_by_country sample_countries orphan_bet_tables "all" = Ok rows ∧
      r ∈ rows ∧ country_col r = None.
Proof.
  assert (ggr_by_country sample_countries orphan_bet_tables "all" =
    Ok [ {| country_col := Some "Ukraine"; GGR := 10 |} ]) as Hrows
    by by vm_compute.
  split; [by vm_compute; left|]. split.
  { intros u Hu. apply list_elem_of_singleton in Hu as ->. done. }
  split; [by vm_compute|]. split; [done|].
  intros (rows & r & Heq & Hr & Hnone). rewrite Hrows in Heq.
  injection Heq as <-. by apply list_elem_of_singleton in Hr as ->.
Qed.

(** C1, as the code has it: a bet of the segment whose user has no row in
    users is kept by the left join, with a null country, and the report is
    returned without error; the group-by then leaves rows with a null
    country out, so no row of the report has a null key and the report is
    the one the tables give without the bets of that user. *)
Theorem ggr_by_country_unmatched_bet cg T device b :
  b ∈ bets T → user_id b ∈ get_device_users T device →
  (∀ u, u ∈ users T → user_id u ≠ user_id b) →
  {| bu_bet := b; bu_user := None |} ∈
    merge_left (filtered_bets T device) (users T) ∧
  (∀ r, r ∈ merge_left (filtered_bets T device) (users T) →
        bu_bet r = b → bu_country r = None) ∧
  ∃ rows,
    ggr_by_country cg T device = Ok rows ∧
    Forall (λ r, country_col r ≠ None) rows ∧
    ggr_by_country cg (without_bets_of (user_id b) T) device = Ok rows.
Proof.
  intros Hb Hseg Hno. split; [|split].
  - apply merge_left_keeps_unmatched; [|done].
    rewrite filtered_bets_segment. by apply list_elem_of_filter.
  - intros r Hr <-. apply elem_of_merge_left in Hr as [_ Hu].
    unfold bu_country. destruct (bu_user r) as [u|]; [|done].
    destruct Hu as [Hu Hid]. by apply Hno in Hu.
  - eexists. split; [apply ggr_by_country_rows|]. split.
    + apply Forall_fmap, Forall_forall. intros r Hr. cbn.
      by eapply resolved_name_Some, ggr_country_has_code.
    + rewrite ggr_by_country_rows. do 2 f_equal.
      cbn [users without_bets_of]. unfold ggr_country. f_equal.
      rewrite groupby_dropna, filtered_bets_without_bets_of.
      rewrite merge_left_without_unmatched by done.
      by rewrite <- groupby_dropna.
Qed.

Lemma ggr_by_country_unmatched_bet_witness :
  {| bu_bet := {| bet_user_id := 3; bet_time := 100; bet_amount := 25 |};
     bu_user := None |} ∈
    merge_left (filtered_bets orphan_bet_tables "mobile")
      (users orphan_bet_tables) ∧
  ∃ rows,
    ggr_by_country sample_countries orphan_bet_tables "mobile" = Ok rows ∧
    Forall (λ r, country_col r ≠ None) rows ∧
    ggr_by_country sample_countries (without_bets_of 3 orphan_bet_tables)
      "mobile" = Ok rows.
Proof.
  destruct (ggr_by_country_unmatched_bet sample_countries orphan_bet_tables
              "mobile"
              {| bet_user_id := 3; bet_time := 100; bet_amount := 25 |})
    as (Hjoin & _ & Hrows).
  - by left.
  - apply elem_of_users_with_device_type. eexists. split; [by left|done].
  - intros u Hu. apply list_elem_of_singleton in Hu as ->. done.
  - split; [exact Hjoin|exact Hrows].
Defined.

(** ** Worked examples *)

Example week_tables_metrics :
  calculate_metrics week_tables "mobile" =
    Ok [ {| row_date := 0; DAU := 1; WAU := 1; MAU := 1 |};
         {| row_date := 1; DAU := 1; WAU := 2; MAU := 2 |};
         {| row_date := 2; DAU := 1; WAU := 3; MAU := 3 |};
         {| row_date := 3; DAU := 1; WAU := 4; MAU := 4 |};
         {| row_date := 4; DAU := 1; WAU := 5; MAU := 5 |};
         {| row_date := 5; DAU := 1; WAU := 6; MAU := 6 |};
         {| row_date := 6; DAU := 1; WAU := 7; MAU := 7 |} ].
Proof. by vm_compute. Qed.

(** The window is closed at [d - 6] and leaves [d - 7] out. *)
Example window_count_bounds :
  window_count (sessions week_tables) 6 6 = 7%nat ∧
  window_count (sessions week_tables) 7 6 = 6%nat ∧
  window_count (sessions week_tables) 6 5 = 6%nat.
Proof. by vm_compute. Qed.

Example orphan_bet_tables_funnel :
  calculate_funnel bet_before_deposit_tables "all" = (1, 1, 1)%nat ∧
  calculate_funnel orphan_bet_tables "all" = (2, 0, 0)%nat.
Proof. by vm_compute. Qed.

Lemma calculate_metrics_windows_witness :
  ∃ rows r,
    calculate_metrics week_tables "mobile" = Ok rows ∧
    NoDup (row_date <$> rows) ∧
    r ∈ rows ∧ row_date r = 6 ∧
    (∀ r', r' ∈ rows → row_date r' = 6 → r' = r) ∧
    WAU r = size (active_users (filtered_sessions week_tables "mobile") (6 - 6) 6) ∧
    MAU r = size (active_users (filtered_sessions week_tables "mobile") (6 - 29) 6).
Proof.
  apply (calculate_metrics_windows week_tables "mobile" 6).
  apply (bool_decide_unpack _). by vm_compute.
Defined.

Lemma filtered_sessions_users_single_device_witness :
  list_to_set (user_id <$> filtered_sessions two_platform_tables "desktop") =
    get_device_users two_platform_tables "desktop".
Proof.
  apply (filtered_sessions_users_single_device two_platform_tables "desktop").
  by right.
Defined.

(** * Further properties of the report functions *)

(** ** Order and content of the activity frame *)

Lemma StronglySorted_le_NoDup_lt (l : list Z) :
  StronglySorted Z.le l → NoDup l → StronglySorted Z.lt l.
Proof.
  induction 1 as [|x l Hl IH Hx]; intros Hnd; [constructor|].
  apply NoDup_cons in Hnd as [Hnin Hnd].
  constructor; [by apply IH|].
  apply Forall_forall. intros y Hy.
  rewrite Forall_forall in Hx. specialize (Hx y Hy).
  assert (x ≠ y) by (intros ->; done). lia.
Qed.

Lemma metrics_dates_ascending fs :
  StronglySorted Z.lt (pd.sorted (pd.unique (date <$> fs))).
Proof.
  apply StronglySorted_le_NoDup_lt; [|apply NoDup_metrics_dates].
  unfold pd.sorted. apply StronglySorted_merge_sort; apply _.
Qed.

(** X1: the rows of the frame come in strictly ascending order of date. *)
Theorem calculate_metrics_dates_ascending T device :
  ∃ rows,
    calculate_metrics T device = Ok rows ∧
    StronglySorted Z.lt (row_date <$> rows).
Proof.
  eexists. split; [apply calculate_metrics_rows|].
  rewrite metrics_row_dates. apply metrics_dates_ascending.
Qed.

Lemma metrics_row_DAU fs d :
  DAU (metrics_row fs d) = size (active_users fs d d).
Proof.
  cbn [metrics_row DAU]. rewrite nunique_size. unfold active_users.
  do 3 f_equal. apply list_filter_iff. intros s. split.
  - intros [= ->]. lia.
  - intros [? ?]. f_equal. lia.
Qed.

(** X2: the DAU of a row is the number of distinct users with a filtered
    session on the date of the row, and it is at least 1: a date without
    sessions has no row. *)
Theorem calculate_metrics_DAU T device :
  ∃ rows,
    calculate_metrics T device = Ok rows ∧
    Forall (λ r,
      DAU r = size (active_users (filtered_sessions T device)
                      (row_date r) (row_date r)) ∧
      (1 ≤ DAU r)%nat) rows.
Proof.
  eexists. split; [apply calculate_metrics_rows|].
  apply Forall_fmap, Forall_forall. intros d Hd.
  cbn [compose]. rewrite metrics_row_DAU. split; [done|].
  cbn [metrics_row row_date].
  apply elem_of_metrics_dates, list_elem_of_fmap in Hd as (s & -> & Hs).
  destruct (size _) eqn:Hsize; [|lia].
  apply size_empty_inv in Hsize.
  assert (user_id s ∈ active_users (filtered_sessions T device)
            (date s) (date s)) as Hin.
  { apply elem_of_active_users. exists s. split; [done|]. split; [done|lia]. }
  set_solver.
Qed.

(** ** Moving the sessions in time *)

Lemma date_shift_days k s : date (shift_days k s) = date s + k.
Proof. unfold date, shift_days. cbn. by rewrite Z.div_add. Qed.

Lemma user_id_shift_days k (l : list Session) :
  user_id <$> (shift_days k <$> l) = user_id <$> l.
Proof. rewrite <- list_fmap_compose. by apply list_fmap_ext. Qed.

Lemma unique_from_fmap_inj {A B} `{EqDecision A, EqDecision B}
    (f : A → B) `{!Inj (=) (=) f} (seen l : list A) :
  pd.unique_from (f <$> seen) (f <$> l) = f <$> pd.unique_from seen l.
Proof.
  revert seen. induction l as [|x l IH]; intros seen; [done|].
  rewrite fmap_cons. cbn [pd.unique_from].
  destruct (decide (x ∈ seen)) as [Hx|Hx].
  - rewrite decide_True by by apply list_elem_of_fmap_2. apply IH.
  - rewrite decide_False.
    + rewrite fmap_cons. f_equal. rewrite <- IH. by rewrite fmap_cons.
    + intros (y & Hxy & Hy)%list_elem_of_fmap.
      apply (inj f) in Hxy as ->. done.
Qed.

Lemma sorted_fmap_add k (l : list Z) :
  pd.sorted ((λ d, d + k) <$> l) = (λ d, d + k) <$> pd.sorted l.
Proof.
  unfold pd.sorted. apply (Sorted_unique Z.le).
  - apply Sorted_merge_sort; apply _.
  - apply (Sorted_fmap _ Z.le Z.le); [intros; lia|].
    apply Sorted_merge_sort; apply _.
  - by rewrite !merge_sort_Permutation.
Qed.

Lemma users_with_device_type_shift k T ty :
  users_with_device_type (shift_sessions k T) ty = users_with_device_type T ty.
Proof.
  unfold users_with_device_type. cbn [sessions shift_sessions].
  rewrite <- (fmap_filter_proj (shift_days k) (λ s, device_type s = ty)
                (λ s, device_type s = ty)) by done.
  by rewrite user_id_shift_days.
Qed.

Lemma filtered_sessions_shift k T device :
  filtered_sessions (shift_sessions k T) device =
    shift_days k <$> filtered_sessions T device.
Proof.
  unfold filtered_sessions. destruct (decide (device = "all")) as [_|_].
  - rewrite !get_device_users_all, !users_with_device_type_shift.
    cbn [sessions shift_sessions]. symmetry. by apply fmap_filter_proj.
  - cbn [sessions shift_sessions]. symmetry. by apply fmap_filter_proj.
Qed.

Lemma window_count_shift k fs d w :
  window_count (shift_days k <$> fs) (d + k) w = window_count fs d w.
Proof.
  unfold window_count.
  rewrite <- (fmap_filter_proj (shift_days k)
                (λ s, d + k - w ≤ date s ∧ date s ≤ d + k)
                (λ s, d - w ≤ date s ∧ date s ≤ d)).
  - by rewrite user_id_shift_days.
  - intros s. rewrite date_shift_days. lia.
Qed.

Lemma metrics_row_shift k fs d :
  metrics_row (shift_days k <$> fs) (d + k) = shift_row k (metrics_row fs d).
Proof.
  unfold metrics_row, shift_row. cbn [row_date DAU WAU MAU].
  rewrite !window_count_shift. f_equal.
  rewrite <- (fmap_filter_proj (shift_days k)
                (λ s, Some (date s) = Some (d + k))
                (λ s, Some (date s) = Some d)).
  - by rewrite user_id_shift_days.
  - intros s. rewrite date_shift_days. split; intros [= H]; f_equal; lia.
Qed.

(** X3: moving every session by the same number of whole days moves the
    date of every row by that number and leaves DAU, WAU and MAU as they
    are. *)
Theorem calculate_metrics_shift k T device :
  ∃ rows,
    calculate_metrics T device = Ok rows ∧
    calculate_metrics (shift_sessions k T) device = Ok (shift_row k <$> rows).
Proof.
  eexists. split; [apply calculate_metrics_rows|].
  rewrite calculate_metrics_rows, filtered_sessions_shift. f_equal.
  set (fs := filtered_sessions T device).
  assert (date <$> (shift_days k <$> fs) = (λ d, d + k) <$> (date <$> fs))
    as ->.
  { rewrite <- !list_fmap_compose. apply list_fmap_ext.
    intros _ s _. apply date_shift_days. }
  assert (Inj (=) (=) (λ d, d + k)) as Hinj by (intros x y ?; lia).
  unfold pd.unique.
  rewrite (unique_from_fmap_inj (λ d, d + k) [] (date <$> fs) : pd.unique_from [] _ = _).
  rewrite sorted_fmap_add, <- !list_fmap_compose.
  apply list_fmap_ext. intros _ d _. apply metrics_row_shift.
Qed.

(** ** The sessions and the users behind the "all" selection *)

Lemma elem_of_get_device_users_all T u :
  u ∈ get_device_users T "all" ↔
  ∃ s, s ∈ sessions T ∧ user_id s = u ∧
       (device_type s = "mobile" ∨ device_type s = "desktop").
Proof.
  rewrite get_device_users_all, elem_of_union,
    !elem_of_users_with_device_type.
  naive_solver.
Qed.

Lemma filter_all {A} (P : A → Prop) `{!∀ x, Decision (P x)} (l : list A) :
  (∀ x, x ∈ l → P x) → filter P l = l.
Proof.
  intros HP. induction l as [|x l IH]; [done|].
  rewrite filter_cons_True by (apply HP; left).
  f_equal. apply IH. intros y Hy. apply HP. by right.
Qed.

Lemma filtered_sessions_all_filter T :
  filtered_sessions T "all" =
    filter (λ s, user_id s ∈ get_device_users T "all") (sessions T).
Proof. reflexivity. Qed.

(** X5: under "all" a session is counted exactly when its user has some
    mobile or desktop session, whatever the device_type of the session
    itself; when every session is a mobile or a desktop one, all sessions
    are counted. *)
Theorem filtered_sessions_all T :
  (∀ s, s ∈ filtered_sessions T "all" ↔
        s ∈ sessions T ∧
        ∃ s', s' ∈ sessions T ∧ user_id s' = user_id s ∧
              (device_type s' = "mobile" ∨ device_type s' = "desktop")) ∧
  ((∀ s, s ∈ sessions T →
         device_type s = "mobile" ∨ device_type s = "desktop") →
   filtered_sessions T "all" = sessions T).
Proof.
  assert (∀ s, s ∈ filtered_sessions T "all" ↔
               s ∈ sessions T ∧ user_id s ∈ get_device_users T "all")
    as Hin.
  { intros s. rewrite filtered_sessions_all_filter, list_elem_of_filter.
    tauto. }
  split.
  - intros s. by rewrite Hin, elem_of_get_device_users_all.
  - intros Hty. rewrite filtered_sessions_all_filter. apply filter_all.
    intros s Hs. apply elem_of_get_device_users_all. exists s. auto.
Qed.

Lemma filtered_sessions_segment T device :
  device = "mobile" ∨ device = "desktop" ∨ device = "all" →
  list_to_set (user_id <$> filtered_sessions T device) =
    get_device_users T device.
Proof.
  intros [-> | [-> | ->]]; [done..|].
  apply set_eq. intros u.
  rewrite elem_of_list_to_set, list_elem_of_fmap. split.
  - intros (s & -> & Hs). rewrite filtered_sessions_all_filter in Hs.
    by apply list_elem_of_filter in Hs as [? _].
  - intros Hu. pose proof Hu as Hall.
    apply elem_of_get_device_users_all in Hu as (s & Hs & <- & Hty).
    exists s. split; [done|]. rewrite filtered_sessions_all_filter.
    by apply list_elem_of_filter.
Qed.

Lemma window_count_le_users fs d k :
  (window_count fs d k ≤ size (list_to_set (user_id <$> fs) : gset Z))%nat.
Proof.
  rewrite <- nunique_size. unfold window_count. apply nunique_mono.
  intros u. rewrite !list_elem_of_fmap. intros (s & -> & Hs).
  exists s. split; [done|]. by apply list_elem_of_filter in Hs as [_ ?].
Qed.

(** X4: for the three values of the selector the users of the sessions that
    [calculate_metrics] counts are the segment of [get_device_users], so no
    MAU (nor WAU, nor DAU) of the frame exceeds the first count of the
    funnel for the same device. *)
Theorem calculate_metrics_within_segment T device :
  device = "mobile" ∨ device = "desktop" ∨ device = "all" →
  list_to_set (user_id <$> filtered_sessions T device) =
    get_device_users T device ∧
  ∃ rows,
    calculate_metrics T device = Ok rows ∧
    Forall (λ r, (DAU r ≤ (calculate_funnel T device).1.1)%nat ∧
                 (WAU r ≤ (calculate_funnel T device).1.1)%nat ∧
                 (MAU r ≤ (calculate_funnel T device).1.1)%nat) rows.
Proof.
  intros Hdev. pose proof (filtered_sessions_segment T device Hdev) as Hseg.
  split; [done|].
  eexists. split; [apply calculate_metrics_rows|].
  apply Forall_fmap, Forall_forall. intros d _. cbn [compose].
  destruct (metrics_row_ordered (filtered_sessions T device) d) as [H1 H2].
  assert (MAU (metrics_row (filtered_sessions T device) d) ≤
          (calculate_funnel T device).1.1)%nat as H3.
  { cbn. rewrite <- Hseg. apply window_count_le_users. }
  lia.
Qed.

Lemma calculate_metrics_within_segment_witness :
  list_to_set (user_id <$> filtered_sessions two_platform_tables "all") =
    get_device_users two_platform_tables "all" ∧
  ∃ rows,
    calculate_metrics two_platform_tables "all" = Ok rows ∧
    Forall (λ r,
      (DAU r ≤ (calculate_funnel two_platform_tables "all").1.1)%nat ∧
      (WAU r ≤ (calculate_funnel two_platform_tables "all").1.1)%nat ∧
      (MAU r ≤ (calculate_funnel two_platform_tables "all").1.1)%nat) rows.
Proof.
  apply (calculate_metrics_within_segment two_platform_tables "all").
  right. right. reflexivity.
Defined.

(** ** The cohorts of the funnel as intersections *)

Lemma elem_of_depositors T u :
  u ∈ depositors T ↔
  ∃ t, t ∈ transactions T ∧ user_id t = u ∧ transaction_type t = "deposit".
Proof.
  unfold depositors. rewrite elem_of_list_to_set, list_elem_of_fmap.
  setoid_rewrite list_elem_of_filter. naive_solver.
Qed.

Lemma elem_of_bettors T u :
  u ∈ bettors T ↔ ∃ b, b ∈ bets T ∧ user_id b = u.
Proof.
  unfold bettors. rewrite elem_of_list_to_set, list_elem_of_fmap.
  naive_solver.
Qed.

Lemma deposit_users_inter T device :
  deposit_users T device = get_device_users T device ∩ depositors T.
Proof.
  apply set_eq. intros u.
  by rewrite elem_of_intersection, elem_of_deposit_users, elem_of_depositors.
Qed.

Lemma bet_users_inter T device :
  bet_users T device =
    get_device_users T device ∩ depositors T ∩ bettors T.
Proof.
  apply set_eq. intros u.
  by rewrite elem_of_intersection, elem_of_bet_users, elem_of_bettors,
    deposit_users_inter.
Qed.

(** X6: the three counts of the funnel are the sizes of the segment, of the
    segment cut with the users that have a deposit transaction, and of that
    cut with the users that have a bet; so a user who bets and never
    deposits is in neither of the last two. *)
Theorem calculate_funnel_intersections T device :
  calculate_funnel T device =
    (size (get_device_users T device),
     size (get_device_users T device ∩ depositors T),
     size (get_device_users T device ∩ depositors T ∩ bettors T)) ∧
  (∀ u, u ∉ depositors T →
        (u ∉ deposit_users T device) ∧ (u ∉ bet_users T device)).
Proof.
  split.
  - unfold calculate_funnel. by rewrite deposit_users_inter, bet_users_inter.
  - intros u Hu. rewrite bet_users_inter, deposit_users_inter. set_solver.
Qed.

Lemma size_union_le (X Y : gset Z) : (size (X ∪ Y) ≤ size X + size Y)%nat.
Proof.
  rewrite size_union_alt.
  assert (size (Y ∖ X) ≤ size Y)%nat by (apply subseteq_size; set_solver).
  lia.
Qed.

(** X7: every cohort of the funnel for "all" is the union of the mobile and
    the desktop cohort, so each count for "all" is at least the count for
    either platform and at most their sum. *)
Theorem calculate_funnel_all_union T :
  deposit_users T "all" = deposit_users T "mobile" ∪ deposit_users T "desktop" ∧
  bet_users T "all" = bet_users T "mobile" ∪ bet_users T "desktop" ∧
  ∀ reg dep bet regm depm betm regd depd betd : nat,
    calculate_funnel T "all" = (reg, dep, bet) →
    calculate_funnel T "mobile" = (regm, depm, betm) →
    calculate_funnel T "desktop" = (regd, depd, betd) →
    (regm ≤ reg ∧ regd ≤ reg ∧ reg ≤ regm + regd)%nat ∧
    (depm ≤ dep ∧ depd ≤ dep ∧ dep ≤ depm + depd)%nat ∧
    (betm ≤ bet ∧ betd ≤ bet ∧ bet ≤ betm + betd)%nat.
Proof.
  assert (deposit_users T "all" =
          deposit_users T "mobile" ∪ deposit_users T "desktop") as Hdep.
  { rewrite !deposit_users_inter, get_device_users_all,
      get_device_users_mobile, get_device_users_desktop. set_solver. }
  assert (bet_users T "all" =
          bet_users T "mobile" ∪ bet_users T "desktop") as Hbet.
  { rewrite !bet_users_inter, get_device_users_all,
      get_device_users_mobile, get_device_users_desktop. set_solver. }
  split; [done|]. split; [done|].
  intros reg dep bet regm depm betm regd depd betd.
  unfold calculate_funnel. rewrite Hdep, Hbet, get_device_users_all.
  rewrite get_device_users_mobile, get_device_users_desktop.
  intros [= <- <- <-] [= <- <- <-] [= <- <- <-].
  repeat split;
    first [apply subseteq_size; set_solver | apply size_union_le].
Qed.

(** ** Order and repetition of the rows *)

Lemma get_device_users_same_rows T1 T2 device :
  (∀ s, s ∈ sessions T1 ↔ s ∈ sessions T2) →
  get_device_users T1 device = get_device_users T2 device.
Proof.
  intros Hs.
  assert (∀ ty, users_with_device_type T1 ty = users_with_device_type T2 ty)
    as Hty.
  { intros ty. apply set_eq. intros u.
    rewrite !elem_of_users_with_device_type. by setoid_rewrite Hs. }
  unfold get_device_users. by rewrite !Hty.
Qed.

(** X8: the funnel reads its tables as sets of rows: two states of the
    tables with the same session, transaction and bet rows, in any order
    and with any repetition, give the same three counts. *)
Theorem calculate_funnel_same_rows T1 T2 device :
  (∀ s, s ∈ sessions T1 ↔ s ∈ sessions T2) →
  (∀ t, t ∈ transactions T1 ↔ t ∈ transactions T2) →
  (∀ b, b ∈ bets T1 ↔ b ∈ bets T2) →
  calculate_funnel T1 device = calculate_funnel T2 device.
Proof.
  intros Hs Ht Hb.
  pose proof (get_device_users_same_rows T1 T2 device Hs) as Hseg.
  assert (depositors T1 = depositors T2) as Hdep.
  { apply set_eq. intros u. rewrite !elem_of_depositors.
    by setoid_rewrite Ht. }
  assert (bettors T1 = bettors T2) as Hbet.
  { apply set_eq. intros u. rewrite !elem_of_bettors. by setoid_rewrite Hb. }
  unfold calculate_funnel.
  by rewrite !bet_users_inter, !deposit_users_inter, Hseg, Hdep, Hbet.
Qed.

Lemma calculate_funnel_same_rows_witness :
  calculate_funnel bet_before_deposit_tables "mobile" =
    calculate_funnel (doubled_tables bet_before_deposit_tables) "mobile".
Proof.
  apply (calculate_funnel_same_rows bet_before_deposit_tables
           (doubled_tables bet_before_deposit_tables) "mobile");
    intros x; cbn [doubled_tables sessions transactions bets];
    rewrite elem_of_app, elem_of_reverse; tauto.
Defined.

(** ** The sums of the GGR report *)

Lemma sum_cons (x : Z) (l : list Z) : sum (x :: l) = x + sum l.
Proof. reflexivity. Qed.




Lemma sum_app (l1 l2 : list Z) : sum (l1 ++ l2) = sum l1 + sum l2.
Proof.
  induction l1 as [|x l1 IH]; [done|].
  rewrite <- app_comm_cons, !sum_cons. lia.
Qed.


Section groupby_sums.
Context {R K : Type} `{EqDecision K}.
Context (le : relation K) `{∀ x y, Decision (le x y)}.
Context (key : R → option K) (f : R → Z).



End groupby_sums.



(** ** Rows of users with one user_id *)

Lemma filter_none {A} (P : A → Prop) `{!∀ x, Decision (P x)} (l : list A) :
  (∀ x, x ∈ l → ¬ P x) → filter P l = [].
Proof.
  intros HP. induction l as [|x l IH]; [done|].
  rewrite filter_cons_False by (apply HP; left).
  apply IH. intros y Hy. apply HP. by right.
Qed.








(** ** The rows of the GGR report *)



(** X13: for a device value other than "mobile", "desktop" and "all" no
    bet is kept, whatever the bets table holds, and the report is the empty
    frame, returned without error. *)
Theorem ggr_by_country_unknown_device cg T device :
  device ≠ "mobile" → device ≠ "desktop" → device ≠ "all" →
  filtered_bets T device = [] ∧ ggr_by_country cg T device = Ok [].
Proof.
  intros Hm Hd Ha.
  assert (filtered_bets T device = []) as Hnone.
  { rewrite filtered_bets_segment, get_device_users_other by done.
    apply filter_none. intros b _. apply not_elem_of_empty. }
  split; [done|]. by rewrite ggr_by_country_rows, Hnone.
Qed.

Lemma ggr_by_country_unknown_device_witness :
  filtered_bets orphan_bet_tables "tablet" = [] ∧
  ggr_by_country sample_countries orphan_bet_tables "tablet" = Ok [].
Proof.
  by apply (ggr_by_country_unknown_device sample_countries
              orphan_bet_tables "tablet").
Defined.

(** ** What the activity metrics read *)

Lemma fmap_filter_columns {B} (g : Session → B) (π : Z * string * Z → B)
    (Q : Session → Prop) (P : Z * string * Z → Prop)
    `{!∀ s, Decision (Q s)} `{!∀ x, Decision (P x)} (l : list Session) :
  (∀ s, Q s ↔ P (session_columns s)) →
  (∀ s, g s = π (session_columns s)) →
  g <$> filter Q l = π <$> filter P (session_columns <$> l).
Proof.
  intros HQ Hg.
  rewrite <- (fmap_filter_proj session_columns P Q) by done.
  rewrite <- list_fmap_compose. apply list_fmap_ext. intros _ s _. apply Hg.
Qed.

Lemma get_device_users_columns T1 T2 device :
  session_columns <$> sessions T1 = session_columns <$> sessions T2 →
  get_device_users T1 device = get_device_users T2 device.
Proof.
  intros Hcol.
  assert (∀ T ty, users_with_device_type T ty =
    list_to_set ((λ x, x.1.1) <$>
      filter (λ x : Z * string * Z, x.1.2 = ty)
        (session_columns <$> sessions T))) as Hty.
  { intros T ty. unfold users_with_device_type. f_equal.
    by apply fmap_filter_columns. }
  unfold get_device_users. by rewrite !Hty, Hcol.
Qed.

Lemma filtered_sessions_columns T1 T2 device :
  session_columns <$> sessions T1 = session_columns <$> sessions T2 →
  session_columns <$> filtered_sessions T1 device =
    session_columns <$> filtered_sessions T2 device.
Proof.
  intros Hcol. unfold filtered_sessions.
  destruct (decide (device = "all")) as [_|_].
  - rewrite (get_device_users_columns T1 T2 "all" Hcol).
    set (U := get_device_users T2 "all").
    rewrite !(fmap_filter_columns session_columns id
                (λ s, user_id s ∈ U) (λ x, x.1.1 ∈ U)) by done.
    by rewrite Hcol.
  - rewrite !(fmap_filter_columns session_columns id
                (λ s, device_type s = device) (λ x, x.1.2 = device)) by done.
    by rewrite Hcol.
Qed.

Lemma metrics_row_columns fs1 fs2 d :
  session_columns <$> fs1 = session_columns <$> fs2 →
  metrics_row fs1 d = metrics_row fs2 d.
Proof.
  intros Hcol.
  assert (∀ fs w, window_count fs d w =
    pd.nunique ((λ x, x.1.1) <$>
      filter (λ x : Z * string * Z, d - w ≤ x.2 ∧ x.2 ≤ d)
        (session_columns <$> fs))) as Hwin.
  { intros fs w. unfold window_count. f_equal.
    by apply fmap_filter_columns. }
  unfold metrics_row. rewrite !Hwin, Hcol. f_equal.
  rewrite !(fmap_filter_columns user_id (λ x, x.1.1)
              (λ s, Some (date s) = Some d)
              (λ x : Z * string * Z, Some x.2 = Some d)) by done.
  by rewrite Hcol.
Qed.

(** X14: the activity metrics read the user, the device_type and the day of
    the start of each session and nothing else: two states of the sessions
    table that agree on these, row by row, give the same frame, whatever
    the end_time and the time of day of the start. *)
Theorem calculate_metrics_reads_columns T1 T2 device :
  session_columns <$> sessions T1 = session_columns <$> sessions T2 →
  calculate_metrics T1 device = calculate_metrics T2 device.
Proof.
  intros Hcol. rewrite !calculate_metrics_rows.
  pose proof (filtered_sessions_columns T1 T2 device Hcol) as Hfs.
  set (fs1 := filtered_sessions T1 device) in *.
  set (fs2 := filtered_sessions T2 device) in *.
  assert (date <$> fs1 = date <$> fs2) as ->.
  { change date with (λ s, (session_columns s).2).
    by rewrite !(list_fmap_compose session_columns snd), Hfs. }
  f_equal. apply list_fmap_ext. intros _ d _.
  by apply metrics_row_columns.
Qed.

Lemma calculate_metrics_reads_columns_witness :
  calculate_metrics week_tables "mobile" =
    calculate_metrics week_evening_tables "mobile".
Proof.
  apply (calculate_metrics_reads_columns week_tables week_evening_tables
           "mobile").
  by vm_compute.
Defined.
